(** * A shallow embedding of [server.js] (emailbuilder-backend)

    The repository is one Express application.  Its template routes
    delegate to a Mongoose model over a MongoDB collection, and its upload
    route delegates to multer with a Cloudinary storage engine.  We embed
    the route handlers as they are written, and model the library calls they
    make ([new EmailTemplate(..).save()], [findById], [findByIdAndUpdate],
    [findByIdAndDelete], [upload.single('image')]) by the behaviour of
    those libraries: casting of ids and fields, the [required] validator,
    the array default, the [timestamps] option and the [new: true] option.

    JSON numbers are modelled as integers; Mongoose's String cast prints
    them in decimal, which is what JavaScript's [Number#toString] gives for
    the integers it represents exactly and prints without an exponent
    (magnitude at most 2^53). *)

From Stdlib Require Import String Ascii List Bool ZArith NArith Lia Permutation.
Import ListNotations.
Open Scope string_scope.
Set Warnings "-register-all".

(** ** JSON values, as produced by [express.json()] *)

Inductive json : Type :=
| JNull
| JBool (b : bool)
| JNum (z : Z)
| JStr (s : string)
| JArr (l : list json)
| JObj (kvs : list (string * json)).

(** Property access [o.k] on a parsed body.  [JSON.parse] keeps the last
    value of a duplicated key; anything but an object has no such own
    property, so the access yields [undefined] ([None]). *)
Definition js_get (o : json) (k : string) : option json :=
  match o with
  | JObj kvs =>
      match find (fun kv => String.eqb (fst kv) k) (rev kvs) with
      | Some (_, v) => Some v
      | None => None
      end
  | _ => None
  end.

(** ** Decimal printing, used by Mongoose's String cast of a number *)

Definition digit_char (n : N) : ascii := ascii_of_N (48 + n).

Fixpoint digits_of_N (fuel : nat) (n : N) (acc : string) : string :=
  match fuel with
  | O => acc
  | S f =>
      let acc' := String (digit_char (n mod 10)) acc in
      if (n <? 10)%N then acc' else digits_of_N f (n / 10) acc'
  end.

Definition string_of_N (n : N) : string :=
  digits_of_N (S (N.to_nat (N.size n))) n "".

Definition string_of_Z (z : Z) : string :=
  match z with
  | Zneg p => String "-" (string_of_N (Npos p))
  | _ => string_of_N (Z.to_N z)
  end.

(** ** Strings as used for ObjectIds *)

Fixpoint string_forallb (f : ascii -> bool) (s : string) : bool :=
  match s with
  | EmptyString => true
  | String c s' => f c && string_forallb f s'
  end.

Fixpoint string_map (f : ascii -> ascii) (s : string) : string :=
  match s with
  | EmptyString => EmptyString
  | String c s' => String (f c) (string_map f s')
  end.

Definition is_hex_char (c : ascii) : bool :=
  let n := N_of_ascii c in
  (((48 <=? n) && (n <=? 57)) || ((97 <=? n) && (n <=? 102))
  || ((65 <=? n) && (n <=? 70)))%N.

Definition lower_char (c : ascii) : ascii :=
  let n := N_of_ascii c in
  if (65 <=? n)%N && (n <=? 90)%N then ascii_of_N (n + 32) else c.

Definition hex_char (n : N) : ascii :=
  if (n <? 10)%N then ascii_of_N (48 + n) else ascii_of_N (87 + n).

(** [k] lowercase hex digits of [n], least significant first. *)
Fixpoint hex_digits (k : nat) (n : N) : string :=
  match k with
  | O => EmptyString
  | S k' => String (hex_char (n mod 16)) (hex_digits k' (n / 16))
  end.

(** Casting a route parameter to an ObjectId (Mongoose 8, bson 6: a
    string casts only when it is 24 hex digits, in either case); the result
    is the id's canonical form, the lowercase string, which is what the
    store compares.  Any other string throws a [CastError]. *)
Definition cast_oid (s : string) : option string :=
  if (String.length s =? 24)%nat && string_forallb is_hex_char s
  then Some (string_map lower_char s)
  else None.

(** A fresh ObjectId generated by the driver when a document is built.
    Real ObjectIds mix a timestamp, a random value and a counter; we use a
    counter, which is what uniqueness needs. *)
Definition oid_of_counter (n : N) : string := hex_digits 24 n.

(** ** The [EmailTemplate] model

    [new mongoose.Schema({ title: { type: String, required: true },
    sections: { type: Array, default: [] } }, { timestamps: true })].
    A stored [title] or [sections] can be [null] ([None]): an update does
    not run validators. *)

Record template : Type := mkTemplate {
  t_id : string;                   (** [_id], canonical lowercase hex *)
  t_title : option string;
  t_sections : option (list json);
  t_createdAt : N;
  t_updatedAt : N;
  t_v : N                          (** [__v] *)
}.

(** The collection and its environment: whether the server is reachable,
    the driver's ObjectId counter and the clock read by [timestamps]. *)
Record store : Type := mkStore {
  docs : list template;
  db_up : bool;
  oid_counter : N;
  clock : N
}.

Inductive db_error : Type :=
| CastError
| ValidationError
| DuplicateKey
| ConnectionFailure.

Inductive result (A : Type) : Type :=
| Ok (a : A)
| Err (e : db_error).
Arguments Ok {A} a.
Arguments Err {A} e.

(** [res.status(code).json(body)]; [res.json(body)] is code 200. *)
Record response : Type := mkResponse { status : N; body : json }.

Definition error_body (msg : string) : json := JObj [("error", JStr msg)].

(** [doc.toJSON()]. *)
Definition template_json (d : template) : json :=
  JObj [("_id", JStr (t_id d));
        ("title", match t_title d with Some s => JStr s | None => JNull end);
        ("sections", match t_sections d with Some l => JArr l | None => JNull end);
        ("createdAt", JNum (Z.of_N (t_createdAt d)));
        ("updatedAt", JNum (Z.of_N (t_updatedAt d)));
        ("__v", JNum (Z.of_N (t_v d)))].

(** *** Casting of the two fields *)

Inductive cast_result (A : Type) : Type :=
| CastOk (a : A)
| CastFail.
Arguments CastOk {A} a.
Arguments CastFail {A}.

(** Mongoose's [castString]: [null]/[undefined] stay as they are, a
    document-like value with a non-empty string [_id] gives that [_id]
    ([value._id && typeof value._id === 'string']), a value with
    its own [toString] (numbers, booleans, strings) is converted, and plain
    objects and arrays throw a [CastError]. *)
Definition cast_string (v : option json) : cast_result (option string) :=
  match v with
  | None | Some JNull => CastOk None
  | Some (JStr s) => CastOk (Some s)
  | Some (JNum z) => CastOk (Some (string_of_Z z))
  | Some (JBool b) => CastOk (Some (if b then "true" else "false"))
  | Some (JObj kvs) =>
      match js_get (JObj kvs) "_id" with
      | Some (JStr (String c s)) => CastOk (Some (String c s))
      | _ => CastFail
      end
  | Some (JArr _) => CastFail
  end.

(** [SchemaArray.cast] for an array of [Mixed]: an array is kept element by
    element, [null] stays [null], any other value is wrapped in an array. *)
Definition cast_array (v : json) : option (list json) :=
  match v with
  | JNull => None
  | JArr l => Some l
  | other => Some [other]
  end.

(** *** Store primitives *)

Definition lookup_doc (oid : string) (ds : list template) : option template :=
  find (fun d => String.eqb (t_id d) oid) ds.

Definition remove_doc (oid : string) (ds : list template) : list template :=
  filter (fun d => negb (String.eqb (t_id d) oid)) ds.

Definition replace_doc (d' : template) (ds : list template) : list template :=
  map (fun d => if String.eqb (t_id d) (t_id d') then d' else d) ds.

(** [new EmailTemplate({ title, sections })]: the driver assigns a fresh
    [_id]; an [undefined] [sections] takes the default [[]]. The cast of
    [title] is kept to be reported by validation on [save]. *)
Record new_doc : Type := mkNewDoc {
  n_id : string;
  n_title : cast_result (option string);
  n_sections : option (list json)
}.

Definition construct (st : store) (title sections : option json) : store * new_doc :=
  let oid := oid_of_counter (oid_counter st) in
  let secs := match sections with None => Some [] | Some v => cast_array v end in
  (mkStore (docs st) (db_up st) (N.succ (oid_counter st)) (clock st),
   mkNewDoc oid (cast_string title) secs).

(** [doc.save()]: validation ([title] castable, present and non-empty, as
    the [required] validator of a String path demands), then the insert,
    which fails when the server is unreachable or the [_id] exists. *)
Definition save (st : store) (n : new_doc) : store * result template :=
  match n_title n with
  | CastFail => (st, Err ValidationError)
  | CastOk None => (st, Err ValidationError)
  | CastOk (Some "") => (st, Err ValidationError)
  | CastOk (Some t) =>
      if negb (db_up st) then (st, Err ConnectionFailure)
      else match lookup_doc (n_id n) (docs st) with
           | Some _ => (st, Err DuplicateKey)
           | None =>
               let d := mkTemplate (n_id n) (Some t) (n_sections n)
                                   (clock st) (clock st) 0 in
               (mkStore (docs st ++ [d]) (db_up st) (oid_counter st) (clock st),
                Ok d)
           end
  end.

(** [Model.findById(id)]. *)
Definition findById (st : store) (id : string) : result (option template) :=
  match cast_oid id with
  | None => Err CastError
  | Some oid =>
      if db_up st then Ok (lookup_doc oid (docs st)) else Err ConnectionFailure
  end.

(** The major version of Mongoose the server runs on; the repository pins
    none.  In Mongoose 5 an [undefined] value in an update is sent as
    [null]; from Mongoose 6 on, undefined keys are stripped from updates.
    Everything else in this file follows current Mongoose (8, with bson 6). *)
Inductive mongoose_major : Type :=
| Mongoose_upto5
| Mongoose_from6.

(** [Model.findByIdAndUpdate(id, { title, sections }, { new: true })]:
    the id and the update are cast first, then the update is applied
    (validators do not run), [timestamps] sets [updatedAt], and the
    document after the update is returned. *)
Definition findByIdAndUpdate (mv : mongoose_major) (st : store) (id : string)
    (title sections : option json) : store * result (option template) :=
  match cast_oid id with
  | None => (st, Err CastError)
  | Some oid =>
      match cast_string title with
      | CastFail => (st, Err CastError)
      | CastOk t =>
          if negb (db_up st) then (st, Err ConnectionFailure)
          else match lookup_doc oid (docs st) with
               | None => (st, Ok None)
               | Some d =>
                   let title' :=
                     match title, mv with
                     | None, Mongoose_from6 => t_title d
                     | _, _ => t
                     end in
                   let sections' :=
                     match sections, mv with
                     | None, Mongoose_from6 => t_sections d
                     | None, Mongoose_upto5 => None
                     | Some v, _ => cast_array v
                     end in
                   let d' := mkTemplate (t_id d) title' sections'
                                        (t_createdAt d) (clock st) (t_v d) in
                   (mkStore (replace_doc d' (docs st)) (db_up st)
                            (oid_counter st) (clock st),
                    Ok (Some d'))
               end
      end
  end.

(** [Model.findByIdAndDelete(id)]. *)
Definition findByIdAndDelete (st : store) (id : string)
    : store * result (option template) :=
  match cast_oid id with
  | None => (st, Err CastError)
  | Some oid =>
      if negb (db_up st) then (st, Err ConnectionFailure)
      else match lookup_doc oid (docs st) with
           | None => (st, Ok None)
           | Some d =>
               (mkStore (remove_doc oid (docs st)) (db_up st)
                        (oid_counter st) (clock st), Ok (Some d))
           end
  end.

(** ** The route handlers *)

(** 1. [app.post('/api/email-templates')]. *)
Definition create_template (st : store) (req_body : json) : store * response :=
  let title := js_get req_body "title" in
  let sections := js_get req_body "sections" in
  let '(st1, newTemplate) := construct st title sections in
  let '(st2, r) := save st1 newTemplate in
  match r with
  | Ok savedTemplate => (st2, mkResponse 201 (template_json savedTemplate))
  | Err _ => (st2, mkResponse 500 (error_body "Failed to create email template."))
  end.

(** 2. [app.get('/api/email-templates')].  [EmailTemplate.find()] has no
    sort, so the documents come in the server's natural order, which
    MongoDB leaves unspecified: [natural_order] is that order, applied to
    the collection. *)
Definition list_templates (natural_order : list template -> list template)
    (st : store) : store * response :=
  if db_up st
  then (st, mkResponse 200 (JArr (map template_json (natural_order (docs st)))))
  else (st, mkResponse 500 (error_body "Failed to fetch email templates.")).

(** 3. [app.get('/api/email-templates/:id')]. *)
Definition get_template (st : store) (id : string) : store * response :=
  match findById st id with
  | Ok None => (st, mkResponse 404 (error_body "Template not found."))
  | Ok (Some template) => (st, mkResponse 200 (template_json template))
  | Err _ => (st, mkResponse 500 (error_body "Failed to fetch the email template."))
  end.

(** 4. [app.put('/api/email-templates/:id')]. *)
Definition update_template (mv : mongoose_major) (st : store) (id : string)
    (req_body : json) : store * response :=
  let title := js_get req_body "title" in
  let sections := js_get req_body "sections" in
  let '(st1, r) := findByIdAndUpdate mv st id title sections in
  match r with
  | Ok None => (st1, mkResponse 404 (error_body "Template not found."))
  | Ok (Some updatedTemplate) => (st1, mkResponse 200 (template_json updatedTemplate))
  | Err _ => (st1, mkResponse 500 (error_body "Failed to update the email template."))
  end.

(** 5. [app.delete('/api/email-templates/:id')]. *)
Definition delete_template (st : store) (id : string) : store * response :=
  let '(st1, r) := findByIdAndDelete st id in
  match r with
  | Ok None => (st1, mkResponse 404 (error_body "Template not found."))
  | Ok (Some _) =>
      (st1, mkResponse 200 (JObj [("message", JStr "Template deleted successfully.")]))
  | Err _ => (st1, mkResponse 500 (error_body "Failed to delete the email template."))
  end.

(** ** The upload route: multer with a Cloudinary storage engine *)

(** [new CloudinaryStorage({ cloudinary, params: { folder: 'email-images',
    allowed_formats: ['jpg', 'png', 'jpeg', 'gif'] } })]. *)
Definition upload_folder : string := "email-images".
Definition allowed_formats : list string := ["jpg"; "png"; "jpeg"; "gif"].

(** An uploaded file: [originalname] is the [filename] parameter of the
    part's [Content-Disposition] header, and [format] is the format
    Cloudinary detects from its content.  A part without a [filename]
    parameter is a text field for busboy. *)
Record upload_file : Type := mkFile {
  originalname : string;
  format : string
}.

Definition is_path_sep (c : ascii) : bool :=
  (N_of_ascii c =? 47)%N || (N_of_ascii c =? 92)%N.

Fixpoint string_existsb (f : ascii -> bool) (s : string) : bool :=
  match s with
  | EmptyString => false
  | String c s' => f c || string_existsb f s'
  end.

(** What follows the last ['/'] or ['\\'] of a string. *)
Fixpoint after_last_sep (s : string) : string :=
  match s with
  | EmptyString => EmptyString
  | String c s' =>
      if string_existsb is_path_sep s' then after_last_sep s'
      else if is_path_sep c then s' else s
  end.

(** busboy's [basename] of a file name ([preservePath] is off): the part
    after the last separator, with ["."] and [".."] giving [""]. *)
Definition busboy_basename (s : string) : string :=
  let p := after_last_sep s in
  if String.eqb p ".." || String.eqb p "." then "" else p.

Inductive part : Type :=
| FieldPart (name value : string)
| FilePart (name : string) (f : upload_file).

Inductive upload_request : Type :=
| NotMultipart                       (** not [multipart/form-data] *)
| Multipart (parts : list part).

(** The remote media host: stored assets [(folder, public_id, format)],
    whether it is reachable, and its public-id generator. *)
Record cloud : Type := mkCloud {
  cloud_name : string;
  assets : list (string * string * string);
  cloud_up : bool;
  asset_counter : N
}.

Inductive upload_error : Type :=
| UnsupportedFormatError (fmt : string)
| UploadError
| LIMIT_UNEXPECTED_FILE (field : string).

(** [req.file] as set by the storage engine. *)
Record file_info : Type := mkFileInfo {
  fieldname : string;
  path : string;
  filename : string
}.

Definition asset_url (c : cloud) (public_id fmt : string) : string :=
  "https://res.cloudinary.com/" ++ cloud_name c ++ "/image/upload/"
  ++ upload_folder ++ "/" ++ public_id ++ "." ++ fmt.

(** [storage._handleFile]: [cloudinary.uploader.upload_stream] with the
    configured params. *)
Definition cloudinary_upload (c : cloud) (field : string) (f : upload_file)
    : cloud * (upload_error + file_info) :=
  if negb (cloud_up c) then (c, inl UploadError)
  else if negb (existsb (String.eqb (format f)) allowed_formats)
  then (c, inl (UnsupportedFormatError (format f)))
  else
    let pid := "img" ++ string_of_N (asset_counter c) in
    (mkCloud (cloud_name c) (assets c ++ [(upload_folder, pid, format f)])
             (cloud_up c) (N.succ (asset_counter c)),
     inr (mkFileInfo field (asset_url c pid (format f))
                     (upload_folder ++ "/" ++ pid))).

(** The parts loop of [upload.single(field)]: a file part whose file name
    is empty after busboy's [basename] is skipped ([if (!filename) return
    fileStream.resume()]); a file part under another field, or a second
    file, fails with [LIMIT_UNEXPECTED_FILE] before the storage engine sees
    it; text fields go to [req.body]. *)
Fixpoint multer_parts (field : string) (filesLeft : nat) (c : cloud)
    (acc : option file_info) (ps : list part)
    : cloud * (upload_error + option file_info) :=
  match ps with
  | [] => (c, inr acc)
  | FieldPart _ _ :: ps' => multer_parts field filesLeft c acc ps'
  | FilePart name f :: ps' =>
      if String.eqb (busboy_basename (originalname f)) "" then
        multer_parts field filesLeft c acc ps'
      else if negb (String.eqb name field) then (c, inl (LIMIT_UNEXPECTED_FILE name))
      else match filesLeft with
           | O => (c, inl (LIMIT_UNEXPECTED_FILE name))
           | S n =>
               let '(c1, r) := cloudinary_upload c name f in
               match r with
               | inl e => (c1, inl e)
               | inr fi => multer_parts field n c1 (Some fi) ps'
               end
           end
  end.

(** [upload.single(field)] as middleware: a request that is not multipart
    passes through with no [req.file]; on an error multer removes the files
    it already stored ([storage._removeFile]) and calls [next(err)]. *)
Definition multer_single (field : string) (c : cloud) (req : upload_request)
    : cloud * (upload_error + option file_info) :=
  match req with
  | NotMultipart => (c, inr None)
  | Multipart ps =>
      let '(c1, r) := multer_parts field 1 c None ps in
      match r with
      | inl e =>
          (mkCloud (cloud_name c1) (assets c) (cloud_up c1) (asset_counter c1),
           inl e)
      | inr fi => (c1, inr fi)
      end
  end.

(** Express's default error handler: an error without a [status] gives a
    500 page (its text is modelled as a JSON string). *)
Definition default_error_response (e : upload_error) : response :=
  mkResponse 500 (JStr "Internal Server Error").

(** 6. [app.post('/api/upload-image', upload.single('image'), handler)]. *)
Definition upload_image (c : cloud) (req : upload_request) : cloud * response :=
  let '(c1, r) := multer_single "image" c req in
  match r with
  | inl e => (c1, default_error_response e)
  | inr None => (c1, mkResponse 400 (error_body "No image uploaded."))
  | inr (Some file) => (c1, mkResponse 200 (JObj [("imageUrl", JStr (path file))]))
  end.

(** * Properties *)

(** ** Generated ObjectIds cast back to themselves *)

Lemma hex_char_ok (m : N) :
  (m < 16)%N -> is_hex_char (hex_char m) = true /\ lower_char (hex_char m) = hex_char m.
Proof.
  intros Hm.
  assert (m = 0 \/ m = 1 \/ m = 2 \/ m = 3 \/ m = 4 \/ m = 5 \/ m = 6 \/ m = 7 \/
          m = 8 \/ m = 9 \/ m = 10 \/ m = 11 \/ m = 12 \/ m = 13 \/ m = 14 \/ m = 15)%N
    as Hcases by lia.
  repeat (destruct Hcases as [-> | Hcases]; [split; reflexivity |]).
  subst; split; reflexivity.
Qed.

Lemma hex_digits_length (k : nat) (n : N) : String.length (hex_digits k n) = k.
Proof.
  revert n; induction k as [| k IH]; intros n; simpl; [reflexivity | now rewrite IH].
Qed.

Lemma hex_digits_hex (k : nat) (n : N) :
  string_forallb is_hex_char (hex_digits k n) = true /\
  string_map lower_char (hex_digits k n) = hex_digits k n.
Proof.
  revert n; induction k as [| k IH]; intros n; simpl; [split; reflexivity |].
  destruct (hex_char_ok (n mod 16)) as [H1 H2]; [apply N.mod_lt; discriminate |].
  destruct (IH (n / 16)%N) as [H3 H4].
  rewrite H1, H2, H3, H4; split; reflexivity.
Qed.

Lemma cast_oid_of_counter (n : N) : cast_oid (oid_of_counter n) = Some (oid_of_counter n).
Proof.
  unfold cast_oid, oid_of_counter.
  rewrite hex_digits_length.
  destruct (hex_digits_hex 24 n) as [H1 H2].
  rewrite H1, H2; reflexivity.
Qed.

(** ** Store lemmas *)

Lemma lookup_doc_app_fresh (oid : string) (ds : list template) (d : template) :
  lookup_doc oid ds = None -> t_id d = oid -> lookup_doc oid (ds ++ [d]) = Some d.
Proof.
  intros Hnone Hid; unfold lookup_doc in *.
  induction ds as [| d0 ds IH]; simpl in *.
  - rewrite Hid, String.eqb_refl; reflexivity.
  - destruct (String.eqb (t_id d0) oid); [discriminate | now apply IH].
Qed.

Lemma lookup_doc_id (oid : string) (ds : list template) (d : template) :
  lookup_doc oid ds = Some d -> t_id d = oid.
Proof.
  intros H; apply find_some in H as [_ H]; now apply String.eqb_eq.
Qed.


Lemma lookup_doc_remove (oid : string) (ds : list template) :
  lookup_doc oid (remove_doc oid ds) = None.
Proof.
  unfold lookup_doc, remove_doc.
  induction ds as [| d0 ds IH]; simpl; [reflexivity |].
  destruct (String.eqb (t_id d0) oid) eqn:E; simpl; [exact IH |].
  rewrite E; exact IH.
Qed.

(** Reading the fields back from [doc.toJSON()]. *)
Lemma template_json_fields (d : template) :
  js_get (template_json d) "_id" = Some (JStr (t_id d)) /\
  js_get (template_json d) "title"
    = Some (match t_title d with Some s => JStr s | None => JNull end) /\
  js_get (template_json d) "sections"
    = Some (match t_sections d with Some l => JArr l | None => JNull end).
Proof. repeat split; reflexivity. Qed.

(** A successful [save] of a freshly constructed document. *)
Lemma create_success (st : store) (req_body : json) (st1 : store) (resp : response) :
  create_template st req_body = (st1, resp) -> status resp = 201%N ->
  exists t d,
    cast_string (js_get req_body "title") = CastOk (Some t) /\ t <> "" /\
    db_up st = true /\
    lookup_doc (oid_of_counter (oid_counter st)) (docs st) = None /\
    d = mkTemplate (oid_of_counter (oid_counter st)) (Some t)
          (match js_get req_body "sections" with
           | None => Some [] | Some v => cast_array v end)
          (clock st) (clock st) 0 /\
    st1 = mkStore (docs st ++ [d]) true (N.succ (oid_counter st)) (clock st) /\
    resp = mkResponse 201%N (template_json d).
Proof.
  unfold create_template, construct, save; simpl.
  destruct (cast_string (js_get req_body "title")) as [[t|]|] eqn:Ht;
    [| intros [= <- <-]; discriminate | intros [= <- <-]; discriminate].
  destruct (String.eqb t "") eqn:Hempty.
  - apply String.eqb_eq in Hempty; subst t; intros [= <- <-]; discriminate.
  - apply String.eqb_neq in Hempty.
    assert (Hmatch : forall A (x y : A), match t with "" => x | _ => y end = y)
      by (intros A x y; destruct t; [contradiction | reflexivity]).
    rewrite Hmatch.
    destruct (db_up st) eqn:Hup; simpl; [| intros [= <- <-]; discriminate].
    destruct (lookup_doc (oid_of_counter (oid_counter st)) (docs st)) eqn:Hl;
      [intros [= <- <-]; discriminate |].
    intros [= <- <-] _.
    exists t, (mkTemplate (oid_of_counter (oid_counter st)) (Some t)
          (match js_get req_body "sections" with
           | None => Some [] | Some v => cast_array v end)
          (clock st) (clock st) 0).
    repeat split; auto.
Qed.

(** ** C1: create then getById round-trips title and sections *)


(** A concrete run: the example body of the specification. *)
Definition welcome_body : json :=
  JObj [("title", JStr "Welcome");
        ("sections", JArr [JObj [("type", JStr "text"); ("value", JStr "Hi")]])].

Definition empty_store : store := mkStore [] true 0 0.


(** ** C2: absent ids *)

(** C2 (counterexample). With the store reachable and empty, the id
    ["abc"] names no template, yet [findById], [findByIdAndUpdate] and
    [findByIdAndDelete] throw a [CastError] on it, so getById, update and
    delete all answer 500 rather than 404. *)
Lemma absent_id_malformed_gives_500 :
  snd (get_template empty_store "abc")
    = mkResponse 500 (error_body "Failed to fetch the email template.") /\
  snd (update_template Mongoose_from6 empty_store "abc" welcome_body)
    = mkResponse 500 (error_body "Failed to update the email template.") /\
  snd (update_template Mongoose_upto5 empty_store "abc" welcome_body)
    = mkResponse 500 (error_body "Failed to update the email template.") /\
  snd (delete_template empty_store "abc")
    = mkResponse 500 (error_body "Failed to delete the email template.") /\
  lookup_doc "abc" (docs empty_store) = None.
Proof. repeat split; reflexivity. Qed.

(** A title that is an object with an empty [_id] does not cast to a
    string, so an update with it answers 500 even for an absent id. *)
Lemma update_title_empty_id_object_gives_500 :
  cast_string (Some (JObj [("_id", JStr "")])) = CastFail /\
  snd (update_template Mongoose_from6 empty_store "00000000000000000000000f"
         (JObj [("title", JObj [("_id", JStr "")])]))
    = mkResponse 500 (error_body "Failed to update the email template.") /\
  cast_oid "abcdefghijkl" = None.
Proof. repeat split; reflexivity. Qed.

(** C2 (amended). Let the store be reachable.  For an id of 24 hex
    digits (the only strings that cast to an ObjectId) naming no stored
    template, getById and delete answer 404 ["Template not found."] and
    leave the store as it is, and update does the same when the body's
    [title] casts to a string.  For any other id, all three answer 500. *)
Theorem absent_id_not_found (mv : mongoose_major) (st : store) (id : string)
    (req_body : json) :
  db_up st = true ->
  (forall oid, cast_oid id = Some oid -> lookup_doc oid (docs st) = None ->
     get_template st id = (st, mkResponse 404 (error_body "Template not found.")) /\
     delete_template st id = (st, mkResponse 404 (error_body "Template not found.")) /\
     (cast_string (js_get req_body "title") <> CastFail ->
      update_template mv st id req_body
        = (st, mkResponse 404 (error_body "Template not found.")))) /\
  (cast_oid id = None ->
     status (snd (get_template st id)) = 500%N /\
     status (snd (update_template mv st id req_body)) = 500%N /\
     status (snd (delete_template st id)) = 500%N).
Proof.
  intros Hup; split.
  - intros oid Hc Hl.
    unfold get_template, delete_template, update_template, findById,
      findByIdAndDelete, findByIdAndUpdate.
    rewrite Hc, Hup, Hl; simpl.
    split; [reflexivity | split; [reflexivity |]].
    intros Hcast.
    destruct (cast_string (js_get req_body "title")); [reflexivity | contradiction].
  - intros Hc.
    unfold get_template, delete_template, update_template, findById,
      findByIdAndDelete, findByIdAndUpdate.
    rewrite Hc; repeat split; reflexivity.
Qed.

Definition one_template_store : store :=
  fst (create_template empty_store welcome_body).

Lemma absent_id_not_found_witness :
  db_up one_template_store = true /\
  cast_oid "00000000000000000000000f" = Some "00000000000000000000000f" /\
  lookup_doc "00000000000000000000000f" (docs one_template_store) = None /\
  get_template one_template_store "00000000000000000000000f"
    = (one_template_store, mkResponse 404 (error_body "Template not found.")) /\
  cast_oid "abc" = None /\
  status (snd (delete_template one_template_store "abc")) = 500%N.
Proof.
  destruct (absent_id_not_found Mongoose_from6 one_template_store
              "00000000000000000000000f" welcome_body eq_refl) as [Habs _].
  destruct (absent_id_not_found Mongoose_from6 one_template_store
              "abc" welcome_body eq_refl) as [_ Hbad].
  split; [reflexivity |]; split; [reflexivity |]; split; [reflexivity |].
  split; [destruct (Habs "00000000000000000000000f" eq_refl eq_refl) as [Hg _]; exact Hg |].
  split; [reflexivity |].
  destruct (Hbad eq_refl) as (_ & _ & Hd); exact Hd.
Defined.

(** ** C3: update replaces title and sections *)


Definition welcome_id : string := oid_of_counter 0.

Definition goodbye_body : json :=
  JObj [("title", JStr "Goodbye"); ("sections", JArr [JStr "a"; JStr "b"])].


(** ** C4: delete then getById *)

(** C4. Let the store be reachable and [id] name a stored template.
    Delete answers 200 [{message: "Template deleted successfully."}], and
    a following getById on the resulting store answers 404
    ["Template not found."]. *)
Theorem delete_then_get_not_found (st : store) (id oid : string) (d : template) :
  db_up st = true -> cast_oid id = Some oid -> lookup_doc oid (docs st) = Some d ->
  exists st1,
    delete_template st id
      = (st1, mkResponse 200 (JObj [("message", JStr "Template deleted successfully.")])) /\
    get_template st1 id = (st1, mkResponse 404 (error_body "Template not found.")).
Proof.
  intros Hup Hc Hl.
  exists (mkStore (remove_doc oid (docs st)) true (oid_counter st) (clock st)).
  unfold delete_template, findByIdAndDelete.
  rewrite Hc, Hup, Hl; simpl; split; [reflexivity |].
  unfold get_template, findById; rewrite Hc; simpl; rewrite lookup_doc_remove.
  reflexivity.
Qed.

Lemma delete_then_get_not_found_witness :
  exists st1,
    delete_template one_template_store welcome_id
      = (st1, mkResponse 200 (JObj [("message", JStr "Template deleted successfully.")])) /\
    get_template st1 welcome_id = (st1, mkResponse 404 (error_body "Template not found.")).
Proof.
  exact (delete_then_get_not_found one_template_store welcome_id welcome_id
           (mkTemplate welcome_id (Some "Welcome")
              (Some [JObj [("type", JStr "text"); ("value", JStr "Hi")]]) 0 0 0)
           eq_refl eq_refl eq_refl).
Defined.

(** ** C5: the create route's status follows the store write *)

(** C5. [POST /api/email-templates] answers 201 with the saved document
    (its [_id], [title], [sections], [createdAt], [updatedAt]) exactly when
    [save] succeeds, and that document is the one appended to the
    collection.  It answers 500 ["Failed to create email template."]
    exactly when [save] fails.  A body without [title] always makes
    [save] fail. *)
Theorem create_status_follows_save (st : store) (req_body : json) :
  (let '(st0, newTemplate) :=
     construct st (js_get req_body "title") (js_get req_body "sections") in
   match save st0 newTemplate with
   | (st2, Ok d) =>
       create_template st req_body = (st2, mkResponse 201 (template_json d)) /\
       docs st2 = (docs st ++ [d])%list
   | (st2, Err _) =>
       create_template st req_body
         = (st2, mkResponse 500 (error_body "Failed to create email template.")) /\
       docs st2 = docs st
   end) /\
  (js_get req_body "title" = None ->
   create_template st req_body
     = (mkStore (docs st) (db_up st) (N.succ (oid_counter st)) (clock st),
        mkResponse 500 (error_body "Failed to create email template."))).
Proof.
  split.
  - unfold create_template.
    destruct (construct st (js_get req_body "title") (js_get req_body "sections"))
      as [st0 n] eqn:Hcons.
    assert (Hdocs : docs st0 = docs st)
      by (unfold construct in Hcons; injection Hcons as <- _; reflexivity).
    unfold save.
    destruct (n_title n) as [[t|]|]; try (split; [reflexivity | exact Hdocs]).
    destruct (String.eqb t "") eqn:He.
    + apply String.eqb_eq in He; subst t; split; [reflexivity | exact Hdocs].
    + apply String.eqb_neq in He.
      assert (Hmatch : forall A (x y : A), match t with "" => x | _ => y end = y)
        by (intros A x y; destruct t; [contradiction | reflexivity]).
      rewrite !Hmatch.
      destruct (negb (db_up st0)); [split; [reflexivity | exact Hdocs] |].
      destruct (lookup_doc (n_id n) (docs st0));
        [split; [reflexivity | exact Hdocs] |].
      split; [reflexivity | simpl; rewrite Hdocs; reflexivity].
  - intros Ht; unfold create_template, construct, save; rewrite Ht; reflexivity.
Qed.

(** ** C8: an omitted [sections] defaults to the empty array *)

(** C8. When the create body has no [sections] and the route answers 201,
    the document appended to the collection and the one returned both
    have [sections] equal to [[]]. *)
Theorem create_default_sections (st st1 : store) (req_body : json) (resp : response) :
  js_get req_body "sections" = None ->
  create_template st req_body = (st1, resp) -> status resp = 201%N ->
  exists d,
    resp = mkResponse 201 (template_json d) /\
    docs st1 = (docs st ++ [d])%list /\
    t_sections d = Some [] /\
    js_get (body resp) "sections" = Some (JArr []).
Proof.
  intros Hs Hc H201.
  destruct (create_success st req_body st1 resp Hc H201)
    as (t & d & _ & _ & _ & _ & Hd & Hst1 & Hresp).
  rewrite Hs in Hd.
  exists d; subst st1 resp d; repeat split; reflexivity.
Qed.

Definition untitled_body : json := JObj [("title", JStr "Untitled")].

Lemma create_default_sections_witness :
  exists d,
    snd (create_template empty_store untitled_body) = mkResponse 201 (template_json d) /\
    t_sections d = Some [].
Proof.
  destruct (create_default_sections empty_store
              (fst (create_template empty_store untitled_body)) untitled_body
              (snd (create_template empty_store untitled_body))
              eq_refl eq_refl eq_refl) as (d & H1 & _ & H2 & _).
  exists d; split; assumption.
Defined.

(** ** C10: create reads only [title] and [sections] *)

(** C10. Two create bodies that agree on [title] and [sections] give the
    same response and the same resulting store, whatever other fields
    ([_id], [createdAt], [updatedAt], ...) they carry. *)
Theorem create_reads_only_title_sections (st : store) (body1 body2 : json) :
  js_get body1 "title" = js_get body2 "title" ->
  js_get body1 "sections" = js_get body2 "sections" ->
  create_template st body1 = create_template st body2.
Proof.
  intros Ht Hs; unfold create_template; rewrite Ht, Hs; reflexivity.
Qed.

Definition spoofed_body : json :=
  JObj [("_id", JStr "ffffffffffffffffffffffff"); ("createdAt", JNum 7);
        ("title", JStr "Welcome");
        ("sections", JArr [JObj [("type", JStr "text"); ("value", JStr "Hi")]]);
        ("updatedAt", JNum 9)].

Lemma create_reads_only_title_sections_witness :
  create_template empty_store spoofed_body = create_template empty_store welcome_body.
Proof.
  exact (create_reads_only_title_sections empty_store spoofed_body welcome_body
           eq_refl eq_refl).
Defined.

(** ** C6: the upload route without a file *)

(** A part multer passes over: a text field, or a file part whose file
    name is empty after busboy's [basename]. *)
Definition is_field_part (p : part) : bool :=
  match p with
  | FieldPart _ _ => true
  | FilePart _ f => String.eqb (busboy_basename (originalname f)) ""
  end.

(** The request carries no file at all. *)
Definition no_file_parts (req : upload_request) : bool :=
  match req with
  | NotMultipart => true
  | Multipart ps => forallb is_field_part ps
  end.

Lemma multer_parts_skip_fields (field : string) (k : nat) (c : cloud)
    (acc : option file_info) (ps rest : list part) :
  forallb is_field_part ps = true ->
  multer_parts field k c acc (ps ++ rest) = multer_parts field k c acc rest.
Proof.
  induction ps as [| p ps IH]; simpl; [reflexivity |].
  destruct p as [n v | n f]; simpl; [exact IH |].
  destruct (String.eqb (busboy_basename (originalname f)) ""); simpl;
    [exact IH | discriminate].
Qed.

Lemma cloud_eta (c : cloud) :
  mkCloud (cloud_name c) (assets c) (cloud_up c) (asset_counter c) = c.
Proof. destruct c; reflexivity. Qed.

Definition demo_cloud : cloud := mkCloud "demo" [] true 0.

Definition png_file : upload_file := mkFile "logo.png" "png".

(** A file part whose file name is a bare directory is skipped by multer:
    the route answers 400 as if no file had been sent. *)
Lemma upload_empty_basename_skipped :
  busboy_basename "C:\\photos\\" = "" /\ busboy_basename "x/" = "" /\
  busboy_basename "a/b/logo.png" = "logo.png" /\
  upload_image demo_cloud (Multipart [FilePart "image" (mkFile "x/" "png")])
    = (demo_cloud, mkResponse 400 (error_body "No image uploaded.")).
Proof. repeat split; reflexivity. Qed.

(** C6 (counterexample). A multipart request whose only file is under the
    field [photo] has no file under [image], yet the answer is not 400:
    multer fails with [LIMIT_UNEXPECTED_FILE] and Express answers 500. *)
Lemma upload_other_field_gives_500 :
  upload_image demo_cloud (Multipart [FilePart "photo" png_file])
    = (demo_cloud, default_error_response (LIMIT_UNEXPECTED_FILE "photo")) /\
  status (default_error_response (LIMIT_UNEXPECTED_FILE "photo")) = 500%N.
Proof. split; reflexivity. Qed.

(** C6 (amended).  A request that carries no file at all (not multipart,
    or only text fields and file parts whose file name is empty after
    busboy's [basename], which multer skips) answers 400 ["No image
    uploaded."] and leaves the media host as it is.  A request whose only
    file, with a non-empty file name, is under [image] answers 200
    [{imageUrl}] when the upload succeeds.  A file with a non-empty file
    name under any other field, with no file before it, answers 500 and
    leaves the media host as it is. *)
Theorem upload_without_image_field (c c1 : cloud) (req : upload_request)
    (ps1 ps2 : list part) (name : string) (f : upload_file) (fi : file_info) :
  (no_file_parts req = true ->
   upload_image c req = (c, mkResponse 400 (error_body "No image uploaded."))) /\
  (forallb is_field_part ps1 = true -> forallb is_field_part ps2 = true ->
   busboy_basename (originalname f) <> "" ->
   cloudinary_upload c "image" f = (c1, inr fi) ->
   upload_image c (Multipart (ps1 ++ FilePart "image" f :: ps2))
     = (c1, mkResponse 200 (JObj [("imageUrl", JStr (path fi))]))) /\
  (forallb is_field_part ps1 = true -> busboy_basename (originalname f) <> "" ->
   name <> "image" ->
   upload_image c (Multipart (ps1 ++ FilePart name f :: ps2))
     = (c, default_error_response (LIMIT_UNEXPECTED_FILE name)) /\
   status (default_error_response (LIMIT_UNEXPECTED_FILE name)) = 500%N).
Proof.
  split; [| split].
  - destruct req as [| ps]; simpl; [reflexivity |].
    intros Hf; unfold upload_image, multer_single.
    rewrite <- (app_nil_r ps), (multer_parts_skip_fields _ _ _ _ _ _ Hf).
    reflexivity.
  - intros H1 H2 Hname Hup; unfold upload_image, multer_single.
    rewrite (multer_parts_skip_fields _ _ _ _ _ _ H1); simpl.
    apply String.eqb_neq in Hname; rewrite Hname.
    rewrite Hup.
    rewrite <- (app_nil_r ps2), (multer_parts_skip_fields _ _ _ _ _ _ H2).
    reflexivity.
  - intros H1 Hname Hn; split; [| reflexivity].
    unfold upload_image, multer_single.
    rewrite (multer_parts_skip_fields _ _ _ _ _ _ H1); simpl.
    apply String.eqb_neq in Hname; rewrite Hname.
    apply String.eqb_neq in Hn; rewrite Hn; simpl.
    rewrite cloud_eta; reflexivity.
Qed.

Lemma upload_without_image_field_witness :
  upload_image demo_cloud NotMultipart
    = (demo_cloud, mkResponse 400 (error_body "No image uploaded.")) /\
  upload_image demo_cloud (Multipart ([FieldPart "alt" "logo"] ++ FilePart "image" png_file :: []))
    = (fst (cloudinary_upload demo_cloud "image" png_file),
       mkResponse 200 (JObj [("imageUrl",
         JStr "https://res.cloudinary.com/demo/image/upload/email-images/img0.png")])) /\
  upload_image demo_cloud (Multipart ([] ++ FilePart "photo" png_file :: []))
    = (demo_cloud, default_error_response (LIMIT_UNEXPECTED_FILE "photo")).
Proof.
  destruct (upload_without_image_field demo_cloud
              (fst (cloudinary_upload demo_cloud "image" png_file)) NotMultipart
              [FieldPart "alt" "logo"] [] "photo" png_file
              (mkFileInfo "image"
                 "https://res.cloudinary.com/demo/image/upload/email-images/img0.png"
                 "email-images/img0"))
    as (Ha & Hb & _).
  destruct (upload_without_image_field demo_cloud demo_cloud NotMultipart
              [] [] "photo" png_file
              (mkFileInfo "image" "" ""))
    as (_ & _ & Hc).
  split; [apply Ha; reflexivity |].
  split; [apply Hb; [reflexivity | reflexivity | discriminate | reflexivity] |].
  destruct (Hc eq_refl) as [H _]; [discriminate | discriminate | exact H].
Defined.

(** ** C7: the format allow-list and the fixed folder *)

Lemma allowed_format_spec (fmt : string) :
  existsb (String.eqb fmt) allowed_formats = true <-> In fmt allowed_formats.
Proof.
  rewrite existsb_exists; split.
  - intros (x & Hin & Heq); apply String.eqb_eq in Heq; subst; exact Hin.
  - intros Hin; exists fmt; split; [exact Hin | apply String.eqb_refl].
Qed.

(** C7. The storage engine's upload stores a file only when its format is
    one of jpg, png, jpeg, gif, and it stores it in the folder
    [email-images]; with the media host reachable, a file of an allowed
    format is stored, and a file of any other format is rejected with
    [UnsupportedFormatError] and nothing stored, which the upload route
    turns into a 500 when the file is sent under [image] with a non-empty
    file name. *)
Theorem upload_format_allow_list (c : cloud) (field : string) (f : upload_file) :
  (forall c1 fi, cloudinary_upload c field f = (c1, inr fi) ->
     In (format f) allowed_formats /\
     exists public_id, assets c1 = (assets c ++ [(upload_folder, public_id, format f)])%list) /\
  (cloud_up c = true ->
   (In (format f) allowed_formats ->
      exists c1 fi, cloudinary_upload c field f = (c1, inr fi)) /\
   (~ In (format f) allowed_formats ->
      cloudinary_upload c field f = (c, inl (UnsupportedFormatError (format f))) /\
      (busboy_basename (originalname f) <> "" ->
       upload_image c (Multipart [FilePart "image" f])
        = (c, default_error_response (UnsupportedFormatError (format f)))))).
Proof.
  split; [| intros Hup; split].
  - intros c1 fi; unfold cloudinary_upload.
    destruct (cloud_up c); cbn [negb]; [| intros H; inversion H].
    destruct (existsb (String.eqb (format f)) allowed_formats) eqn:Hfmt; cbn [negb];
      [| intros H; inversion H].
    intros H; injection H as Hc1 _; subst c1; split; [apply allowed_format_spec; exact Hfmt |].
    eexists; reflexivity.
  - intros Hin; apply allowed_format_spec in Hin.
    unfold cloudinary_upload; rewrite Hup, Hin; simpl.
    eexists; eexists; reflexivity.
  - intros Hnin.
    assert (Hb : existsb (String.eqb (format f)) allowed_formats = false)
      by (destruct (existsb _ _) eqn:E; [apply allowed_format_spec in E; contradiction
                                        | reflexivity]).
    assert (Hu : cloudinary_upload c field f = (c, inl (UnsupportedFormatError (format f))))
      by (unfold cloudinary_upload; rewrite Hup, Hb; reflexivity).
    split; [exact Hu |].
    intros Hname; apply String.eqb_neq in Hname.
    unfold upload_image, multer_single; simpl.
    rewrite Hname; simpl.
    unfold cloudinary_upload; rewrite Hup, Hb; simpl.
    rewrite cloud_eta; reflexivity.
Qed.

Definition bmp_file : upload_file := mkFile "logo.bmp" "bmp".

Lemma upload_format_allow_list_witness :
  (exists c1 fi, cloudinary_upload demo_cloud "image" png_file = (c1, inr fi)) /\
  upload_image demo_cloud (Multipart [FilePart "image" bmp_file])
    = (demo_cloud, default_error_response (UnsupportedFormatError "bmp")).
Proof.
  destruct (upload_format_allow_list demo_cloud "image" png_file) as [_ Hpng].
  destruct (upload_format_allow_list demo_cloud "image" bmp_file) as [_ Hbmp].
  split.
  - destruct (Hpng eq_refl) as [Hin _]; apply Hin; simpl; tauto.
  - destruct (Hbmp eq_refl) as [_ Hout].
    destruct Hout as [_ H]; [simpl; intuition discriminate |].
    apply H; discriminate.
Defined.

(** ** Updates with an omitted field depend on the Mongoose version *)

Definition sections_only_body : json := JObj [("sections", JArr [])].

(** An update body without [title] keeps the stored title from Mongoose 6
    on, and sets it to [null] in Mongoose 5. *)
Lemma update_omitted_title_by_version :
  js_get (body (snd (update_template Mongoose_from6 one_template_store welcome_id
                       sections_only_body))) "title" = Some (JStr "Welcome") /\
  js_get (body (snd (update_template Mongoose_upto5 one_template_store welcome_id
                       sections_only_body))) "title" = Some JNull.
Proof. split; reflexivity. Qed.

(** * Further properties of the routes *)

(** ** More store lemmas *)

Lemma lookup_doc_none_iff (oid : string) (ds : list template) :
  lookup_doc oid ds = None <-> ~ In oid (map t_id ds).
Proof.
  unfold lookup_doc; induction ds as [| d ds IH]; simpl; [tauto |].
  destruct (String.eqb (t_id d) oid) eqn:E.
  - apply String.eqb_eq in E; split; [discriminate | intros H; exfalso; tauto].
  - apply String.eqb_neq in E; rewrite IH; split; [intros H [H1 | H1]; tauto | tauto].
Qed.

Lemma map_t_id_replace (d' : template) (ds : list template) :
  map t_id (replace_doc d' ds) = map t_id ds.
Proof.
  unfold replace_doc; induction ds as [| d ds IH]; simpl; [reflexivity |].
  destruct (String.eqb (t_id d) (t_id d')) eqn:E; simpl; rewrite IH; [| reflexivity].
  apply String.eqb_eq in E; rewrite E; reflexivity.
Qed.

Lemma NoDup_map_remove (oid : string) (ds : list template) :
  NoDup (map t_id ds) -> NoDup (map t_id (remove_doc oid ds)).
Proof.
  unfold remove_doc; induction ds as [| d ds IH]; simpl; intros Hnd; [constructor |].
  inversion Hnd as [| x l Hnin Hnd' [Hx Hl]]; subst.
  destruct (negb (String.eqb (t_id d) oid)); simpl; [| now apply IH].
  constructor; [| now apply IH].
  intros Hin; apply Hnin.
  rewrite in_map_iff in Hin |- *; destruct Hin as (y & Hy & Hiny).
  apply filter_In in Hiny; exists y; tauto.
Qed.

Lemma lookup_doc_remove_other (oid oid' : string) (ds : list template) :
  oid' <> oid -> lookup_doc oid' (remove_doc oid ds) = lookup_doc oid' ds.
Proof.
  intros Hne; unfold lookup_doc, remove_doc.
  induction ds as [| d ds IH]; simpl; [reflexivity |].
  destruct (String.eqb (t_id d) oid) eqn:E; simpl.
  - apply String.eqb_eq in E; subst oid.
    destruct (String.eqb (t_id d) oid') eqn:E'; [apply String.eqb_eq in E'; congruence | exact IH].
  - destruct (String.eqb (t_id d) oid'); [reflexivity | exact IH].
Qed.

Lemma lookup_doc_replace_other (oid' : string) (d' : template) (ds : list template) :
  t_id d' <> oid' -> lookup_doc oid' (replace_doc d' ds) = lookup_doc oid' ds.
Proof.
  intros Hne; unfold lookup_doc, replace_doc.
  induction ds as [| d ds IH]; simpl; [reflexivity |].
  destruct (String.eqb (t_id d) (t_id d')) eqn:E; simpl.
  - apply String.eqb_eq in E.
    destruct (String.eqb (t_id d') oid') eqn:E1; [apply String.eqb_eq in E1; contradiction |].
    rewrite <- E in E1; rewrite E1; exact IH.
  - destruct (String.eqb (t_id d) oid'); [reflexivity | exact IH].
Qed.

Lemma lookup_doc_app_some (oid : string) (ds l : list template) (d : template) :
  lookup_doc oid ds = Some d -> lookup_doc oid (ds ++ l) = Some d.
Proof.
  unfold lookup_doc; induction ds as [| d0 ds IH]; simpl; [discriminate |].
  destruct (String.eqb (t_id d0) oid); [tauto | exact IH].
Qed.

Lemma remove_doc_absent (oid : string) (ds : list template) :
  lookup_doc oid ds = None -> remove_doc oid ds = ds.
Proof.
  unfold lookup_doc, remove_doc; induction ds as [| d ds IH]; simpl; [reflexivity |].
  destruct (String.eqb (t_id d) oid); simpl; [discriminate |].
  intros H; rewrite (IH H); reflexivity.
Qed.

(** ** The outcomes of the mutating routes *)

Lemma update_template_cases (mv : mongoose_major) (st st1 : store) (id : string)
    (req_body : json) (r : response) :
  update_template mv st id req_body = (st1, r) ->
  (st1 = st /\ (r = mkResponse 404 (error_body "Template not found.") \/
                r = mkResponse 500 (error_body "Failed to update the email template."))) \/
  (exists oid d d',
     cast_oid id = Some oid /\ db_up st = true /\ lookup_doc oid (docs st) = Some d /\
     st1 = mkStore (replace_doc d' (docs st)) true (oid_counter st) (clock st) /\
     r = mkResponse 200 (template_json d') /\
     t_id d' = oid /\ t_createdAt d' = t_createdAt d).
Proof.
  unfold update_template, findByIdAndUpdate.
  destruct (cast_oid id) as [oid|] eqn:Hc; [| intros [= <- <-]; left; tauto].
  destruct (cast_string (js_get req_body "title")) as [t|] eqn:Ht;
    [| intros [= <- <-]; left; tauto].
  destruct (db_up st) eqn:Hup; simpl; [| intros [= <- <-]; left; tauto].
  destruct (lookup_doc oid (docs st)) as [d|] eqn:Hl; [| intros [= <- <-]; left; tauto].
  intros [= <- <-]; right.
  do 3 eexists; split; [reflexivity |]; split; [reflexivity |]; split; [exact Hl |].
  split; [reflexivity |]; split; [reflexivity |].
  split; [apply (lookup_doc_id _ _ _ Hl) | reflexivity].
Qed.

Lemma delete_template_cases (st st1 : store) (id : string) (r : response) :
  delete_template st id = (st1, r) ->
  (st1 = st /\ (r = mkResponse 404 (error_body "Template not found.") \/
                r = mkResponse 500 (error_body "Failed to delete the email template."))) \/
  (exists oid d,
     cast_oid id = Some oid /\ db_up st = true /\ lookup_doc oid (docs st) = Some d /\
     st1 = mkStore (remove_doc oid (docs st)) true (oid_counter st) (clock st) /\
     r = mkResponse 200 (JObj [("message", JStr "Template deleted successfully.")])).
Proof.
  unfold delete_template, findByIdAndDelete.
  destruct (cast_oid id) as [oid|] eqn:Hc; [| intros [= <- <-]; left; tauto].
  destruct (db_up st) eqn:Hup; simpl; [| intros [= <- <-]; left; tauto].
  destruct (lookup_doc oid (docs st)) as [d|] eqn:Hl; [| intros [= <- <-]; left; tauto].
  intros [= <- <-]; right.
  exists oid, d; repeat split; assumption.
Qed.

Lemma save_err_store (st st2 : store) (n : new_doc) (e : db_error) :
  save st n = (st2, Err e) -> st2 = st.
Proof.
  unfold save.
  destruct (n_title n) as [[t|]|]; [| intros [= <- _]; reflexivity | intros [= <- _]; reflexivity].
  destruct t as [| a t]; [intros [= <- _]; reflexivity |].
  destruct (negb (db_up st)); [intros [= <- _]; reflexivity |].
  destruct (lookup_doc (n_id n) (docs st)); [intros [= <- _]; reflexivity |].
  discriminate.
Qed.

Lemma create_template_cases (st st1 : store) (req_body : json) (r : response) :
  create_template st req_body = (st1, r) ->
  (docs st1 = docs st /\ r = mkResponse 500 (error_body "Failed to create email template.")) \/
  status r = 201%N.
Proof.
  unfold create_template.
  destruct (construct st (js_get req_body "title") (js_get req_body "sections"))
    as [st0 n] eqn:Hcons.
  assert (Hdocs : docs st0 = docs st)
    by (unfold construct in Hcons; injection Hcons as <- _; reflexivity).
  destruct (save st0 n) as [st2 [d|e]] eqn:Hs; intros [= <- <-]; [right; reflexivity |].
  left; split; [| reflexivity].
  rewrite (save_err_store _ _ _ _ Hs); exact Hdocs.
Qed.

Lemma NoDup_snoc (A : Type) (l : list A) (x : A) :
  NoDup l -> ~ In x l -> NoDup (l ++ [x]).
Proof.
  induction l as [| y l IH]; simpl; intros Hnd Hnin.
  - constructor; [tauto | constructor].
  - inversion Hnd as [| y' l' Hy Hl]; subst.
    constructor; [| apply IH; tauto].
    rewrite in_app_iff; simpl; intros [H | [H | H]]; [tauto | subst; tauto | tauto].
Qed.

(** ** The collection never holds two documents with one [_id] *)

Definition ids_unique (st : store) : Prop := NoDup (map t_id (docs st)).

(** Create, update and delete keep the [_id]s of the collection pairwise
    distinct. *)
Theorem ids_unique_preserved (mv : mongoose_major) (st st1 : store) (id : string)
    (req_body : json) (r : response) :
  ids_unique st ->
  (create_template st req_body = (st1, r) -> ids_unique st1) /\
  (update_template mv st id req_body = (st1, r) -> ids_unique st1) /\
  (delete_template st id = (st1, r) -> ids_unique st1).
Proof.
  unfold ids_unique; intros Hu; split; [| split].
  - intros Hc.
    destruct (create_template_cases _ _ _ _ Hc) as [[Hd _] | H201]; [rewrite Hd; exact Hu |].
    destruct (create_success _ _ _ _ Hc H201)
      as (t & d & _ & _ & _ & Hfresh & Hd & Hst1 & _).
    subst st1; simpl; rewrite map_app; simpl.
    apply NoDup_snoc; [exact Hu |].
    apply lookup_doc_none_iff; subst d; exact Hfresh.
  - intros Hc.
    destruct (update_template_cases _ _ _ _ _ _ Hc)
      as [[-> _] | (oid & d & d' & _ & _ & _ & -> & _)]; [exact Hu |].
    simpl; rewrite map_t_id_replace; exact Hu.
  - intros Hc.
    destruct (delete_template_cases _ _ _ _ Hc)
      as [[-> _] | (oid & d & _ & _ & _ & -> & _)]; [exact Hu |].
    simpl; apply NoDup_map_remove; exact Hu.
Qed.

Lemma ids_unique_preserved_witness :
  ids_unique one_template_store /\
  ids_unique (fst (create_template one_template_store goodbye_body)).
Proof.
  assert (H0 : ids_unique one_template_store)
    by (unfold ids_unique; simpl; constructor; [simpl; tauto | constructor]).
  split; [exact H0 |].
  destruct (ids_unique_preserved Mongoose_from6 one_template_store
              (fst (create_template one_template_store goodbye_body)) welcome_id
              goodbye_body (snd (create_template one_template_store goodbye_body)) H0)
    as [Hc _].
  apply Hc; reflexivity.
Defined.

(** ** The listing after a create *)

(** After a create that answers 201, [GET /api/email-templates] answers
    200 with exactly the earlier documents and the created one, in some
    order: whatever order the server lists a collection in, the listing is
    a permutation of the earlier documents followed by the created one. *)
Theorem list_after_create (natural_order : list template -> list template)
    (st st1 : store) (req_body : json) (r : response) :
  (forall ds, Permutation (natural_order ds) ds) ->
  create_template st req_body = (st1, r) -> status r = 201%N ->
  exists listing,
    list_templates natural_order st1 = (st1, mkResponse 200 (JArr listing)) /\
    Permutation listing (map template_json (docs st) ++ [body r]).
Proof.
  intros Hperm Hc H201.
  destruct (create_success _ _ _ _ Hc H201)
    as (t & d & _ & _ & _ & _ & _ & Hst1 & Hr).
  exists (map template_json (natural_order (docs st1))).
  split; [subst st1; reflexivity |].
  subst r; rewrite Hst1; cbn [docs body].
  replace (map template_json (docs st) ++ [template_json d])%list
    with (map template_json (docs st ++ [d])) by (rewrite map_app; reflexivity).
  apply Permutation_map, Hperm.
Qed.

Lemma list_after_create_witness :
  exists listing,
    list_templates (@rev template) (fst (create_template one_template_store goodbye_body))
      = (fst (create_template one_template_store goodbye_body),
         mkResponse 200 (JArr listing)) /\
    Permutation listing (map template_json (docs one_template_store)
                           ++ [body (snd (create_template one_template_store goodbye_body))]).
Proof.
  exact (list_after_create (@rev template) one_template_store
           (fst (create_template one_template_store goodbye_body)) goodbye_body
           (snd (create_template one_template_store goodbye_body))
           (fun ds => Permutation_sym (Permutation_rev ds)) eq_refl eq_refl).
Defined.

(** ** An unreachable store *)

(** When the database is unreachable (the startup connection failed and
    the process went on), every template route answers 500 and the
    collection is unchanged. *)
Theorem store_down_all_500 (mv : mongoose_major)
    (natural_order : list template -> list template) (st : store) (id : string)
    (req_body : json) :
  db_up st = false ->
  status (snd (create_template st req_body)) = 500%N /\
  docs (fst (create_template st req_body)) = docs st /\
  status (snd (list_templates natural_order st)) = 500%N /\
  status (snd (get_template st id)) = 500%N /\
  status (snd (update_template mv st id req_body)) = 500%N /\
  docs (fst (update_template mv st id req_body)) = docs st /\
  status (snd (delete_template st id)) = 500%N /\
  docs (fst (delete_template st id)) = docs st.
Proof.
  intros Hdown.
  assert (Hc : create_template st req_body = (fst (create_template st req_body),
                                               snd (create_template st req_body)))
    by (destruct (create_template st req_body); reflexivity).
  destruct (create_template_cases _ _ _ _ Hc) as [[Hd Hr] | H201].
  2: { destruct (create_success _ _ _ _ Hc H201) as (_ & _ & _ & _ & Hup & _).
       congruence. }
  rewrite Hd, Hr; split; [reflexivity | split; [reflexivity |]].
  unfold list_templates, get_template, findById, update_template, findByIdAndUpdate,
    delete_template, findByIdAndDelete.
  rewrite Hdown.
  destruct (cast_oid id); [| repeat split; reflexivity].
  destruct (cast_string (js_get req_body "title")); repeat split; reflexivity.
Qed.

Lemma store_down_all_500_witness :
  status (snd (get_template (mkStore [] false 0 0) welcome_id)) = 500%N.
Proof.
  destruct (store_down_all_500 Mongoose_from6 (@rev template) (mkStore [] false 0 0) welcome_id
              welcome_body eq_refl) as (_ & _ & _ & H & _).
  exact H.
Defined.

(** ** Failed updates and deletes change nothing *)

(** An update or a delete that does not answer 200 (a 404 or a 500)
    leaves the store exactly as it was. *)
Theorem failed_mutation_no_effect (mv : mongoose_major) (st st1 : store) (id : string)
    (req_body : json) (r : response) :
  ((update_template mv st id req_body = (st1, r) \/ delete_template st id = (st1, r)) ->
   status r <> 200%N -> st1 = st).
Proof.
  intros [Hc | Hc] Hs.
  - destruct (update_template_cases _ _ _ _ _ _ Hc)
      as [[-> _] | (oid & d & d' & _ & _ & _ & _ & -> & _)]; [reflexivity |].
    simpl in Hs; congruence.
  - destruct (delete_template_cases _ _ _ _ Hc)
      as [[-> _] | (oid & d & _ & _ & _ & _ & ->)]; [reflexivity |].
    simpl in Hs; congruence.
Qed.

Lemma failed_mutation_no_effect_witness :
  fst (delete_template one_template_store "abc") = one_template_store.
Proof.
  apply (failed_mutation_no_effect Mongoose_from6 one_template_store
           (fst (delete_template one_template_store "abc")) "abc" welcome_body
           (snd (delete_template one_template_store "abc"))).
  - right; reflexivity.
  - simpl; discriminate.
Defined.

(** ** Frame properties: other documents are untouched *)

(** Delete and update affect only the document the id names: every other
    [_id] is looked up as before. *)
Theorem mutation_frame (mv : mongoose_major) (st st1 : store) (id oid oid' : string)
    (req_body : json) (r : response) :
  cast_oid id = Some oid -> oid' <> oid ->
  (delete_template st id = (st1, r) \/ update_template mv st id req_body = (st1, r)) ->
  lookup_doc oid' (docs st1) = lookup_doc oid' (docs st).
Proof.
  intros Hc Hne [Hd | Hu].
  - destruct (delete_template_cases _ _ _ _ Hd)
      as [[-> _] | (oid0 & d & Hc0 & _ & _ & -> & _)]; [reflexivity |].
    rewrite Hc in Hc0; injection Hc0 as <-.
    apply lookup_doc_remove_other; exact Hne.
  - destruct (update_template_cases _ _ _ _ _ _ Hu)
      as [[-> _] | (oid0 & d & d' & Hc0 & _ & _ & -> & _ & Hid & _)]; [reflexivity |].
    rewrite Hc in Hc0; injection Hc0 as <-.
    simpl; apply lookup_doc_replace_other; congruence.
Qed.

Lemma mutation_frame_witness :
  lookup_doc welcome_id
    (docs (fst (delete_template
                  (fst (create_template one_template_store goodbye_body))
                  (oid_of_counter 1))))
  = lookup_doc welcome_id (docs (fst (create_template one_template_store goodbye_body))).
Proof.
  apply (mutation_frame Mongoose_from6 (fst (create_template one_template_store goodbye_body))
           _ (oid_of_counter 1) (oid_of_counter 1) welcome_id welcome_body
           (snd (delete_template (fst (create_template one_template_store goodbye_body))
                   (oid_of_counter 1)))).
  - reflexivity.
  - discriminate.
  - left; reflexivity.
Defined.

(** A create, whatever its outcome, keeps every stored document where it
    is: a lookup that found a document still finds the same one. *)
Theorem create_frame (st st1 : store) (req_body : json) (r : response)
    (oid : string) (d : template) :
  create_template st req_body = (st1, r) -> lookup_doc oid (docs st) = Some d ->
  lookup_doc oid (docs st1) = Some d.
Proof.
  intros Hc Hl.
  destruct (create_template_cases _ _ _ _ Hc) as [[Hd _] | H201]; [rewrite Hd; exact Hl |].
  destruct (create_success _ _ _ _ Hc H201) as (t & d' & _ & _ & _ & _ & _ & -> & _).
  simpl; apply lookup_doc_app_some; exact Hl.
Qed.

Lemma create_frame_witness :
  lookup_doc welcome_id (docs (fst (create_template one_template_store goodbye_body)))
  = lookup_doc welcome_id (docs one_template_store).
Proof.
  apply (create_frame one_template_store _ goodbye_body
           (snd (create_template one_template_store goodbye_body)) welcome_id
           (mkTemplate welcome_id (Some "Welcome")
              (Some [JObj [("type", JStr "text"); ("value", JStr "Hi")]]) 0 0 0)).
  - reflexivity.
  - reflexivity.
Defined.

(** ** Create then delete *)

(** Deleting, by its returned [_id], a template just created answers 200
    and gives back the collection as it was before the create. *)
Theorem create_then_delete_restores (st st1 : store) (req_body : json) (r : response)
    (id : string) :
  create_template st req_body = (st1, r) -> status r = 201%N ->
  js_get (body r) "_id" = Some (JStr id) ->
  exists st2,
    delete_template st1 id
      = (st2, mkResponse 200 (JObj [("message", JStr "Template deleted successfully.")])) /\
    docs st2 = docs st.
Proof.
  intros Hc H201 Hid.
  destruct (create_success _ _ _ _ Hc H201)
    as (t & d & _ & _ & _ & Hfresh & Hd & Hst1 & Hr).
  subst r; simpl in Hid; injection Hid as <-.
  destruct (delete_then_get_not_found st1 (t_id d) (t_id d) d)
    as (st2 & Hdel & _).
  - subst st1; reflexivity.
  - subst d; apply cast_oid_of_counter.
  - subst st1; simpl; apply lookup_doc_app_fresh; [subst d; exact Hfresh | reflexivity].
  - exists st2; split; [exact Hdel |].
    assert (Hcast : cast_oid (t_id d) = Some (t_id d))
      by (rewrite Hd; apply cast_oid_of_counter).
    destruct (delete_template_cases _ _ _ _ Hdel)
      as [[_ [Hr | Hr]] | (oid0 & d0 & Hc0 & _ & _ & Hst2 & _)];
      [injection Hr; discriminate | injection Hr; discriminate |].
    rewrite Hcast in Hc0; injection Hc0 as <-.
    rewrite Hst2, Hst1; cbn [docs].
    unfold remove_doc; rewrite filter_app; cbn [filter].
    rewrite String.eqb_refl; cbn [negb]; rewrite app_nil_r.
    apply remove_doc_absent; rewrite Hd; exact Hfresh.
Qed.

Lemma create_then_delete_restores_witness :
  exists st2,
    delete_template (fst (create_template one_template_store goodbye_body))
      (oid_of_counter 1)
      = (st2, mkResponse 200 (JObj [("message", JStr "Template deleted successfully.")])) /\
    docs st2 = docs one_template_store.
Proof.
  exact (create_then_delete_restores one_template_store
           (fst (create_template one_template_store goodbye_body)) goodbye_body
           (snd (create_template one_template_store goodbye_body)) (oid_of_counter 1)
           eq_refl eq_refl eq_refl).
Defined.


(** ** Ids are matched regardless of the case of their hex digits *)

(** Two 24-hex-digit ids that differ only in the case of their letters
    name the same template: getById, update and delete answer the same on
    both. *)
Theorem id_case_insensitive (mv : mongoose_major) (st : store) (id1 id2 : string)
    (req_body : json) :
  String.length id1 = 24%nat -> string_forallb is_hex_char id1 = true ->
  String.length id2 = 24%nat -> string_forallb is_hex_char id2 = true ->
  string_map lower_char id1 = string_map lower_char id2 ->
  get_template st id1 = get_template st id2 /\
  update_template mv st id1 req_body = update_template mv st id2 req_body /\
  delete_template st id1 = delete_template st id2.
Proof.
  intros L1 H1 L2 H2 Hlow.
  assert (Hc : cast_oid id1 = cast_oid id2)
    by (unfold cast_oid; rewrite L1, H1, L2, H2; simpl; rewrite Hlow; reflexivity).
  unfold get_template, findById, update_template, findByIdAndUpdate,
    delete_template, findByIdAndDelete.
  rewrite Hc; repeat split; reflexivity.
Qed.

Lemma id_case_insensitive_witness :
  get_template one_template_store "0000000000000000000000AB"
  = get_template one_template_store "0000000000000000000000ab".
Proof.
  destruct (id_case_insensitive Mongoose_from6 one_template_store
              "0000000000000000000000AB" "0000000000000000000000ab" welcome_body
              eq_refl eq_refl eq_refl eq_refl eq_refl) as [H _].
  exact H.
Defined.


(** ** The [_id] a create returns is a usable ObjectId *)

(** A 201 answer of create carries an [_id] of 24 lowercase hex digits,
    which casts to itself as an ObjectId. *)
Theorem created_id_well_formed (st st1 : store) (req_body : json) (r : response) :
  create_template st req_body = (st1, r) -> status r = 201%N ->
  exists id,
    js_get (body r) "_id" = Some (JStr id) /\ String.length id = 24%nat /\
    string_forallb is_hex_char id = true /\ string_map lower_char id = id /\
    cast_oid id = Some id.
Proof.
  intros Hc H201.
  destruct (create_success _ _ _ _ Hc H201) as (t & d & _ & _ & _ & _ & Hd & _ & Hr).
  exists (oid_of_counter (oid_counter st)).
  subst r d; split; [reflexivity |].
  split; [apply hex_digits_length |].
  destruct (hex_digits_hex 24 (oid_counter st)) as [H1 H2].
  split; [exact H1 | split; [exact H2 | apply cast_oid_of_counter]].
Qed.

Lemma created_id_well_formed_witness :
  exists id,
    js_get (body (snd (create_template empty_store welcome_body))) "_id" = Some (JStr id) /\
    cast_oid id = Some id.
Proof.
  destruct (created_id_well_formed empty_store (fst (create_template empty_store welcome_body))
              welcome_body (snd (create_template empty_store welcome_body)) eq_refl eq_refl)
    as (id & H1 & _ & _ & _ & H2).
  exists id; split; assumption.
Defined.

(** ** The upload route stores at most one image *)

Lemma cloudinary_upload_result (c c1 : cloud) (field : string) (f : upload_file)
    (r : upload_error + file_info) :
  cloudinary_upload c field f = (c1, r) ->
  (c1 = c /\ exists e, r = inl e) \/
  (exists pid fi, r = inr fi /\ In (format f) allowed_formats /\
     cloud_name c1 = cloud_name c /\
     assets c1 = (assets c ++ [(upload_folder, pid, format f)])%list).
Proof.
  unfold cloudinary_upload.
  destruct (cloud_up c); cbn [negb]; [| intros [= <- <-]; left; eauto].
  destruct (existsb (String.eqb (format f)) allowed_formats) eqn:Hfmt; cbn [negb];
    [| intros [= <- <-]; left; eauto].
  intros [= <- <-]; right.
  do 2 eexists; split; [reflexivity |].
  split; [apply allowed_format_spec; exact Hfmt | split; reflexivity].
Qed.

Lemma multer_parts_none_left (field : string) (c c1 : cloud) (acc : option file_info)
    (ps : list part) (r : upload_error + option file_info) :
  multer_parts field 0 c acc ps = (c1, r) -> c1 = c /\ (r = inr acc \/ exists e, r = inl e).
Proof.
  revert c1 r; induction ps as [| p ps IH]; intros c1 r; simpl.
  - intros [= <- <-]; tauto.
  - destruct p as [n v | n f]; [apply IH |].
    destruct (String.eqb (busboy_basename (originalname f)) ""); [apply IH |].
    destruct (negb (String.eqb n field)); intros [= <- <-]; eauto.
Qed.

Lemma multer_parts_one_left (field : string) (c c1 : cloud) (ps : list part)
    (r : upload_error + option file_info) :
  multer_parts field 1 c None ps = (c1, r) ->
  (exists e, r = inl e) \/ (r = inr None /\ c1 = c) \/
  (exists fi pid fmt, r = inr (Some fi) /\ In fmt allowed_formats /\
     cloud_name c1 = cloud_name c /\
     assets c1 = (assets c ++ [(upload_folder, pid, fmt)])%list).
Proof.
  revert c1 r; induction ps as [| p ps IH]; intros c1 r; simpl.
  - intros [= <- <-]; tauto.
  - destruct p as [n v | n f]; [apply IH |].
    destruct (String.eqb (busboy_basename (originalname f)) ""); [apply IH |].
    destruct (negb (String.eqb n field)); [intros [= <- <-]; left; eauto |].
    destruct (cloudinary_upload c n f) as [c2 u] eqn:Hup.
    destruct (cloudinary_upload_result _ _ _ _ _ Hup)
      as [[-> [e ->]] | (pid & fi & -> & Hin & Hname & Hassets)];
      [intros [= <- <-]; left; eauto |].
    intros Hm; apply multer_parts_none_left in Hm as [-> [-> | [e ->]]].
    + right; right; exists fi, pid, (format f); tauto.
    + left; eauto.
Qed.

(** Whatever the request, the upload route adds at most one asset to the
    media host: none when it does not answer 200, and when it answers 200
    exactly one, of an allowed format, in the folder [email-images]. *)
Theorem upload_stores_at_most_one (c c1 : cloud) (req : upload_request) (r : response) :
  upload_image c req = (c1, r) ->
  (status r <> 200%N -> assets c1 = assets c) /\
  (status r = 200%N ->
   exists pid fmt, In fmt allowed_formats /\
     assets c1 = (assets c ++ [(upload_folder, pid, fmt)])%list).
Proof.
  unfold upload_image, multer_single.
  destruct req as [| ps]; [intros [= <- <-]; split; [reflexivity | discriminate] |].
  destruct (multer_parts "image" 1 c None ps) as [c2 m] eqn:Hm.
  destruct (multer_parts_one_left _ _ _ _ _ Hm)
    as [[e ->] | [[-> ->] | (fi & pid & fmt & -> & Hin & _ & Hassets)]].
  - intros [= <- <-]; split; [reflexivity | discriminate].
  - intros [= <- <-]; split; [reflexivity | discriminate].
  - intros [= <- <-]; split; [intros H; contradiction H; reflexivity |].
    intros _; exists pid, fmt; split; assumption.
Qed.

Lemma upload_stores_at_most_one_witness :
  assets (fst (upload_image demo_cloud
                 (Multipart [FilePart "image" png_file; FilePart "image" png_file])))
  = assets demo_cloud.
Proof.
  destruct (upload_stores_at_most_one demo_cloud
              (fst (upload_image demo_cloud
                      (Multipart [FilePart "image" png_file; FilePart "image" png_file])))
              (Multipart [FilePart "image" png_file; FilePart "image" png_file])
              (snd (upload_image demo_cloud
                      (Multipart [FilePart "image" png_file; FilePart "image" png_file])))
              eq_refl) as [H _].
  apply H; discriminate.
Defined.
